(** * MeezGo AI media analyzer: the recommendation core

    A shallow embedding of [_compute_recommendations] (src/main.py) and the
    properties its specification states about it.

    Python values are modelled as follows:
    - [str] as [string], [startswith] as [String.prefix] with the arguments
      swapped, dictionary keys compared by string equality (the core only
      tests prefixes and equality, so the unit of a character plays no
      role);
    - [int] as [Z] (Python integers are unbounded), [len] as [Z.of_nat] of
      the list length;
    - [Optional[t]] as [option t], with Python's truthiness written out
      ([None], [0] and the empty string are falsy);
    - [float] as a binary64 primitive float; the literals [0.7], [0.78] and
      [0.85] denote the nearest binary64 value, as they do in Python;
    - the dict literals [order] and [truck_map] as [gmap]s;
    - the list [reasons], mutated by [append], as a list threaded through
      the rules.

    [str.lower] is a builtin whose Unicode case mapping is not reproduced:
    the core is parameterised by the lower-casing function, and every
    property holds for any such function.  [str_lower_ascii] is the
    instance that agrees with Python on ASCII text. *)

From Stdlib Require Import ZArith String Ascii List Bool Lia Floats.
From stdpp Require Import base option gmap strings list.
Import ListNotations.

Set Warnings "-inexact-float".
Local Open Scope string_scope.
Local Open Scope list_scope.
Local Open Scope Z_scope.

(** ** Data model (src/main.py, lines 7-35) *)

Module Context.
Record t : Type := mk {
  place_type : option string;
  place_size : option string;
  pickup_floor : option Z;
  destination_floor : option Z;
  has_elevator : option Z;
  add_heavy : option Z;
  service_type : option string
}.
End Context.

Module AnalyzeRequest.
Record t : Type := mk {
  mode : string;
  video_url : option string;
  image_urls : list string;
  context : Context.t
}.
End AnalyzeRequest.

Module Recommendations.
Record t : Type := mk {
  service_type : string;
  truck_size : option string;
  workers : option Z;
  estimated_minutes : option Z;
  reasons : list string;
  confidence : float;
  recommended_services : list string
}.
End Recommendations.

(** ** Python primitives used by the core *)

(** [bool(x)] for [x : Optional[int]]. *)
Definition bool_int (x : option Z) : bool :=
  match x with
  | None => false
  | Some z => negb (z =? 0)
  end.

(** [bool(x)] for [x : Optional[str]]. *)
Definition bool_str (x : option string) : bool :=
  match x with
  | None => false
  | Some s => negb (String.eqb s "")
  end.

(** [x or d] for [x : Optional[int]]. *)
Definition or_int (x : option Z) (d : Z) : Z :=
  match x with
  | Some z => if bool_int x then z else d
  | None => d
  end.

(** [x or d] for [x : Optional[str]]. *)
Definition or_str (x : option string) (d : string) : string :=
  match x with
  | Some s => if bool_str x then s else d
  | None => d
  end.

(** [s.startswith(p)]. *)
Definition startswith (s p : string) : bool := String.prefix p s.

(** [d.get(k, dflt)]. *)
Definition dict_get {V : Type} (d : gmap string V) (k : string) (dflt : V) : V :=
  match d !! k with
  | Some v => v
  | None => dflt
  end.

(** Lower-casing of the ASCII letters, every other character kept. *)
Definition lower_ascii_char (c : ascii) : ascii :=
  let n := nat_of_ascii c in
  if (Nat.leb 65 n && Nat.leb n 90)%bool then ascii_of_nat (n + 32) else c.

Fixpoint str_lower_ascii (s : string) : string :=
  match s with
  | EmptyString => EmptyString
  | String c s' => String (lower_ascii_char c) (str_lower_ascii s')
  end.

(** ** The stages of [_compute_recommendations] *)

(** Lines 50-59: the minimum service of a (lower-cased) place size.  The
    four [if]s run one after the other, a later one overriding an earlier. *)
Definition min_service_of (place_size : string) : string :=
  let min_service := "light" in
  let min_service :=
    if (startswith place_size "s3_" || startswith place_size "s4_")%bool
    then "medium" else min_service in
  let min_service :=
    if startswith place_size "villa_250_350"
    then "medium" else min_service in
  let min_service :=
    if (startswith place_size "villa_350_500"
        || startswith place_size "comm_150_250")%bool
    then "heavy" else min_service in
  let min_service :=
    if startswith place_size "comm_100_150"
    then "medium" else min_service in
  min_service.

(** Lines 61-76: the suggested level and the reasons appended on the way. *)
Definition suggest (add_heavy has_elevator : bool) (floors_total num_images : Z)
    (reasons : list string) : Z * list string :=
  let suggest_level := 1 in
  let '(suggest_level, reasons) :=
    if add_heavy
    then (Z.max suggest_level 3, reasons ++ ["vision_add_heavy_context"])
    else (suggest_level, reasons) in
  let '(suggest_level, reasons) :=
    if (negb has_elevator && (3 <=? floors_total))%bool
    then (Z.max suggest_level 2, reasons ++ ["vision_multi_floor_no_elevator"])
    else (suggest_level, reasons) in
  let '(suggest_level, reasons) :=
    if 12 <=? num_images
    then (Z.max suggest_level 3, reasons ++ ["vision_many_images_high_volume"])
    else if 6 <=? num_images
    then (Z.max suggest_level 2, reasons ++ ["vision_medium_images_volume"])
    else (suggest_level, reasons) in
  (suggest_level, reasons).

(** Lines 78-82. *)
Definition svc_of_level (suggest_level : Z) : string :=
  let svc := "light" in
  if 3 <=? suggest_level then "heavy"
  else if 2 <=? suggest_level then "medium"
  else svc.

(** Line 84. *)
Definition order : gmap string Z :=
  <["light" := 0]> (<["medium" := 1]> (<["heavy" := 2]> ∅)).

(** Lines 85-87. *)
Definition enforce_minimum (svc min_service : string) (reasons : list string)
    : string * list string :=
  if dict_get order svc 0 <? dict_get order min_service 0
  then (min_service, reasons ++ ["vision_place_size_minimum"])
  else (svc, reasons).

(** Lines 89-104. *)
Definition truck_map : gmap string (string * Z * Z) :=
  <["s1_40_60" := ("small", 2, 90)]> (
  <["s1_60_80" := ("small", 2, 120)]> (
  <["s2_80_100" := ("medium", 3, 150)]> (
  <["s2_100_120" := ("medium", 3, 180)]> (
  <["s3_120_150" := ("large", 4, 240)]> (
  <["s3_150_180" := ("large", 4, 300)]> (
  <["s4_180_220" := ("xl", 4, 360)]> (
  <["s4_220_260" := ("xl", 5, 420)]> (
  <["villa_250_350" := ("xl", 4, 420)]> (
  <["villa_350_500" := ("xxl", 5, 480)]> (
  <["comm_30_60" := ("small", 2, 120)]> (
  <["comm_60_100" := ("medium", 3, 180)]> (
  <["comm_100_150" := ("large", 4, 240)]> (
  <["comm_150_250" := ("xl", 5, 360)]> ∅))))))))))))).

(** Lines 105-108. *)
Definition logistics (place_size : string) (has_elevator : bool) (floors_total : Z)
    : string * Z * Z :=
  let '(t_size, workers, est_minutes) :=
    dict_get truck_map place_size ("small", 2, 120) in
  let est_minutes :=
    if (negb has_elevator && (0 <? floors_total))%bool
    then est_minutes + floors_total * 20
    else est_minutes in
  (t_size, workers, est_minutes).

(** Lines 110-114. *)
Definition base_conf_of (num_images : Z) : float :=
  let base_conf := 0.7%float in
  if 10 <=? num_images then 0.85%float
  else if 5 <=? num_images then 0.78%float
  else base_conf.

(** Lines 116-122. *)
Definition rec_services_of (svc : string) : list string :=
  if String.eqb svc "light" then ["light"; "medium"]
  else if String.eqb svc "medium" then ["medium"; "heavy"]
  else ["heavy"].

Section Core.

(** [str.lower]. *)
Variable lower : string -> string.

(** Lines 45-48 and 70: the normalised signals read from a request. *)
Definition place_size_of (req : AnalyzeRequest.t) : string :=
  lower (or_str (Context.place_size (AnalyzeRequest.context req)) "").

Definition add_heavy_of (req : AnalyzeRequest.t) : bool :=
  bool_int (Context.add_heavy (AnalyzeRequest.context req)).

Definition floors_total_of (req : AnalyzeRequest.t) : Z :=
  or_int (Context.pickup_floor (AnalyzeRequest.context req)) 0
  + or_int (Context.destination_floor (AnalyzeRequest.context req)) 0.

Definition has_elevator_of (req : AnalyzeRequest.t) : bool :=
  bool_int (Context.has_elevator (AnalyzeRequest.context req)).

Definition num_images_of (req : AnalyzeRequest.t) : Z :=
  Z.of_nat (length (AnalyzeRequest.image_urls req)).

(** Lines 41-132. *)
Definition _compute_recommendations (req : AnalyzeRequest.t) : Recommendations.t :=
  let reasons : list string := [] in
  let place_size := place_size_of req in
  let add_heavy := add_heavy_of req in
  let floors_total := floors_total_of req in
  let has_elevator := has_elevator_of req in
  let min_service := min_service_of place_size in
  let num_images := num_images_of req in
  let '(suggest_level, reasons) :=
    suggest add_heavy has_elevator floors_total num_images reasons in
  let svc := svc_of_level suggest_level in
  let '(svc, reasons) := enforce_minimum svc min_service reasons in
  let '(t_size, workers, est_minutes) :=
    logistics place_size has_elevator floors_total in
  let base_conf := base_conf_of num_images in
  let rec_services := rec_services_of svc in
  Recommendations.mk svc (Some t_size) (Some workers) (Some est_minutes)
    reasons base_conf rec_services.

End Core.

(** ** The specification's vocabulary

    The definitions below follow the words of the specification, not the
    code; the theorems compare the two. *)

(** Service tiers, totally ordered: light < medium < heavy. *)
Inductive tier : Type := Light | Medium | Heavy.

Definition tier_ordinal (t : tier) : Z :=
  match t with
  | Light => 0
  | Medium => 1
  | Heavy => 2
  end.

Definition tier_name (t : tier) : string :=
  match t with
  | Light => "light"
  | Medium => "medium"
  | Heavy => "heavy"
  end.

(** Section 4.3: the prefix table, one row per rule, in the order the rules
    are applied. *)
Definition spec_min_rules : list (list string * tier) :=
  [ (["s3_"; "s4_"], Medium);
    (["villa_250_350"], Medium);
    (["villa_350_500"; "comm_150_250"], Heavy);
    (["comm_100_150"], Medium) ].

(** Each rule is applied in turn and unconditionally; a later matching rule
    overrides an earlier one; no match leaves light. *)
Definition spec_min_tier (place_size : string) : tier :=
  fold_left
    (fun acc rule =>
       if existsb (startswith place_size) (fst rule) then snd rule else acc)
    spec_min_rules Light.

(** Section 4.2: the level reached by the rules that match, starting at 1. *)
Definition spec_level (add_heavy has_elevator : bool) (floors_total num_images : Z) : Z :=
  Z.max (if add_heavy then 3 else 1)
    (Z.max (if (negb has_elevator && (3 <=? floors_total))%bool then 2 else 1)
       (if 12 <=? num_images then 3 else if 6 <=? num_images then 2 else 1)).

(** Section 4.2: level >= 3 is heavy, level = 2 is medium, else light. *)
Definition spec_tier_of_level (level : Z) : tier :=
  if 3 <=? level then Heavy else if level =? 2 then Medium else Light.

(** The tier estimated before the minimum is enforced. *)
Definition spec_estimated_tier (add_heavy has_elevator : bool)
    (floors_total num_images : Z) : tier :=
  spec_tier_of_level (spec_level add_heavy has_elevator floors_total num_images).

(** Section 4.3: the minimum is enforced when the estimated tier is below it. *)
Definition spec_minimum_enforced (estimated minimum : tier) : bool :=
  tier_ordinal estimated <? tier_ordinal minimum.

(** Sections 4.2 and 4.3: the reason codes of the rules that fired, in the
    order of evaluation. *)
Definition spec_reasons (add_heavy has_elevator : bool)
    (floors_total num_images : Z) (enforced : bool) : list string :=
  (if add_heavy then ["vision_add_heavy_context"] else [])
  ++ (if (negb has_elevator && (3 <=? floors_total))%bool
      then ["vision_multi_floor_no_elevator"] else [])
  ++ (if 12 <=? num_images then ["vision_many_images_high_volume"]
      else if 6 <=? num_images then ["vision_medium_images_volume"]
      else [])
  ++ (if enforced then ["vision_place_size_minimum"] else []).

(** Section 4.4: the logistics table, keyed by the exact place size. *)
Definition spec_logistics_table : list (string * (string * Z * Z)) :=
  [ ("s1_40_60", ("small", 2, 90));
    ("s1_60_80", ("small", 2, 120));
    ("s2_80_100", ("medium", 3, 150));
    ("s2_100_120", ("medium", 3, 180));
    ("s3_120_150", ("large", 4, 240));
    ("s3_150_180", ("large", 4, 300));
    ("s4_180_220", ("xl", 4, 360));
    ("s4_220_260", ("xl", 5, 420));
    ("villa_250_350", ("xl", 4, 420));
    ("villa_350_500", ("xxl", 5, 480));
    ("comm_30_60", ("small", 2, 120));
    ("comm_60_100", ("medium", 3, 180));
    ("comm_100_150", ("large", 4, 240));
    ("comm_150_250", ("xl", 5, 360)) ].

(** The table entry of a place size; an unknown key has the default triple. *)
Definition spec_logistics (place_size : string) : string * Z * Z :=
  match List.find (fun e => String.eqb (fst e) place_size) spec_logistics_table with
  | Some e => snd e
  | None => ("small", 2, 120)
  end.

Definition spec_base_minutes (place_size : string) : Z :=
  snd (spec_logistics place_size).

(** The penalty of section 4.4: 20 minutes per floor without an elevator. *)
Definition spec_elevator_penalty (has_elevator : bool) (floors_total : Z) : Z :=
  if (negb has_elevator && (0 <? floors_total))%bool then floors_total * 20 else 0.

(** The prefixes that section 4.3 tests. *)
Definition spec_min_prefixes : list string :=
  concat (map fst spec_min_rules).

(** ** Example requests *)

Definition example_context (place_size : string)
    (pickup_floor destination_floor has_elevator add_heavy : option Z) : Context.t :=
  Context.mk None (Some place_size) pickup_floor destination_floor
    has_elevator add_heavy None.

Definition example_request (place_size : string)
    (pickup_floor destination_floor has_elevator add_heavy : option Z)
    (image_urls : list string) : AnalyzeRequest.t :=
  AnalyzeRequest.mk "images" None image_urls
    (example_context place_size pickup_floor destination_floor
       has_elevator add_heavy).

(** A small flat with heavy items and three images. *)
Definition example_heavy_items : AnalyzeRequest.t :=
  example_request "s1_40_60" None None None (Some 1) ["a.jpg"; "b.jpg"; "c.jpg"].

(** A three-room flat served by an elevator. *)
Definition example_with_elevator : AnalyzeRequest.t :=
  example_request "S3_120_150" (Some 4) (Some 2) (Some 1) (Some 0) [].

(** The same flat without an elevator: three floors in total. *)
Definition example_stairs : AnalyzeRequest.t :=
  example_request "S3_120_150" (Some 2) (Some 1) (Some 0) (Some 0) [].

(** A place size that no table knows, two floors, no elevator. *)
Definition example_unknown_size : AnalyzeRequest.t :=
  example_request "unknown_code" (Some 2) None None None [].

(** Requests with a given number of images and nothing else. *)
Definition example_images (n : nat) : AnalyzeRequest.t :=
  example_request "s1_60_80" None None None None (repeat "u.jpg" n).

(** Two requests with the same signals and different everything else. *)
Definition example_video : AnalyzeRequest.t :=
  AnalyzeRequest.mk "video" (Some "https://cdn.example/v.mp4") ["1.jpg"; "2.jpg"]
    (Context.mk (Some "villa") (Some "villa_250_350") (Some 1) None None None
       (Some "light")).

Definition example_images_only : AnalyzeRequest.t :=
  AnalyzeRequest.mk "images" None ["9.png"; "1.jpg"]
    (Context.mk None (Some "villa_250_350") (Some 1) None None None
       (Some "heavy")).

(** The large villa of section 8: elevator, ground floor, no image. *)
Definition example_villa : AnalyzeRequest.t :=
  example_request "villa_350_500" (Some 0) (Some 0) (Some 1) (Some 0) [].

(** ** The request handler (src/main.py, lines 135-144)

    [analyze_media] reads the process environment and the request headers
    and either raises an [HTTPException] or returns the core's result.
    The environment is the mapping [os.environ], passed explicitly; the
    headers are the lookup [request.headers.get], which the framework
    provides (it matches header names without regard to case); an
    exception is the left summand of the result.  [str.strip] is a builtin
    like [str.lower] and is a parameter in the same way; [str_strip_ascii]
    is the instance that agrees with Python on ASCII text. *)

Module AnalyzeResponse.
Record t : Type := mk {
  recommendations : Recommendations.t
}.
End AnalyzeResponse.

Module HTTPException.
Record t : Type := mk {
  status_code : Z;
  detail : string
}.
End HTTPException.

Module Request.
Record t : Type := mk {
  headers : string -> option string
}.
End Request.

(** [bool(s)] for [s : str]. *)
Definition bool_of_str (s : string) : bool := negb (String.eqb s "").

(** [request.headers.get(name, dflt)]. *)
Definition headers_get (request : Request.t) (name dflt : string) : string :=
  match Request.headers request name with
  | Some v => v
  | None => dflt
  end.

(** A call either raises an [HTTPException] or returns a value. *)
Definition http_result : Type -> Type := sum HTTPException.t.

#[local] Instance http_result_ret : MRet http_result :=
  fun A a => inr a.

#[local] Instance http_result_bind : MBind http_result :=
  fun A B k m =>
    match m with
    | inl e => inl e
    | inr a => k a
    end.

Definition raise {A : Type} (e : HTTPException.t) : http_result A := inl e.

(** The whitespace that [str.strip] removes from ASCII text:
    tab, line feed, vertical tab, form feed, carriage return, the four
    separators 28-31 and the space. *)
Definition is_space_ascii (c : ascii) : bool :=
  let n := nat_of_ascii c in
  ((Nat.leb 9 n && Nat.leb n 13) || (Nat.leb 28 n && Nat.leb n 32))%bool.

Fixpoint str_lstrip_ascii (s : string) : string :=
  match s with
  | EmptyString => EmptyString
  | String c s' => if is_space_ascii c then str_lstrip_ascii s' else s
  end.

Fixpoint str_rstrip_ascii (s : string) : string :=
  match s with
  | EmptyString => EmptyString
  | String c s' =>
      match str_rstrip_ascii s' with
      | EmptyString => if is_space_ascii c then EmptyString else String c EmptyString
      | String _ _ as rest => String c rest
      end
  end.

Definition str_strip_ascii (s : string) : string :=
  str_rstrip_ascii (str_lstrip_ascii s).

Section Handler.

(** [str.lower] and [str.strip]. *)
Variable lower strip : string -> string.

(** Lines 137-141: the shared-secret check. *)
Definition check_secret (environ : gmap string string) (request : Request.t)
    : http_result unit :=
  let expected_secret := strip (dict_get environ "MCP_COLAB_API_SECRET" "") in
  if bool_of_str expected_secret then
    let header_secret := strip (headers_get request "X-MCP-Secret" "") in
    if negb (String.eqb header_secret expected_secret)
    then raise (HTTPException.mk 401 "Invalid secret")
    else mret tt
  else mret tt.

(** Lines 136-144. *)
Definition analyze_media (environ : gmap string string)
    (req : AnalyzeRequest.t) (request : Request.t) : http_result AnalyzeResponse.t :=
  check_secret environ request ;;
  let rec := _compute_recommendations lower req in
  mret (AnalyzeResponse.mk rec).

End Handler.

(** Requests of the transport layer, with and without the secret header. *)
Definition example_no_header : Request.t :=
  Request.mk (fun _ => None).

Definition example_header (value : string) : Request.t :=
  Request.mk (fun name =>
    if String.eqb (str_lower_ascii name) "x-mcp-secret" then Some value else None).

Definition example_environ (secret : string) : gmap string string :=
  <["MCP_COLAB_API_SECRET" := secret]> ∅.

(** Signals that differ field by field and normalise to the same values. *)
Definition example_raw_signals : AnalyzeRequest.t :=
  AnalyzeRequest.mk "images" None ["a.jpg"]
    (Context.mk None (Some "COMM_60_100") (Some 3) None (Some 7) (Some (-1)) None).

Definition example_plain_signals : AnalyzeRequest.t :=
  AnalyzeRequest.mk "images" None ["z.jpg"]
    (Context.mk None (Some "comm_60_100") (Some 1) (Some 2) (Some 1) (Some 1) None).

(** Floors that cancel: three floors down and three floors up, no elevator. *)
Definition example_basement : AnalyzeRequest.t :=
  example_request "s2_80_100" (Some (-3)) (Some 3) None None [].

(** A decorated place size: a known prefix, but not a key of the table. *)
Definition example_decorated_villa : AnalyzeRequest.t :=
  example_request "villa_350_500_plus" None None (Some 1) None [].

(** The three-room flat of [example_with_elevator] without its elevator. *)
Definition example_more_stairs : AnalyzeRequest.t :=
  example_request "S3_120_150" (Some 4) (Some 2) None None [].

(** ** Auxiliary facts about the stages *)

(** Case analysis on the guards of the escalation rules of lines 62-76. *)
Ltac case_rules add_heavy has_elevator floors_total num_images :=
  destruct add_heavy,
    (negb has_elevator && (3 <=? floors_total))%bool,
    (12 <=? num_images), (6 <=? num_images).

Lemma dict_get_order_tier (t : tier) :
  dict_get order (tier_name t) 0 = tier_ordinal t.
Proof. destruct t; vm_compute; reflexivity. Qed.

Lemma min_service_of_spec (place_size : string) :
  min_service_of place_size = tier_name (spec_min_tier place_size).
Proof.
  unfold min_service_of, spec_min_tier, spec_min_rules.
  cbn [fold_left existsb fst snd].
  destruct (startswith place_size "s3_"), (startswith place_size "s4_"),
    (startswith place_size "villa_250_350"),
    (startswith place_size "villa_350_500"),
    (startswith place_size "comm_150_250"),
    (startswith place_size "comm_100_150"); reflexivity.
Qed.

Lemma svc_of_level_spec (level : Z) :
  svc_of_level level = tier_name (spec_tier_of_level level).
Proof.
  unfold svc_of_level, spec_tier_of_level.
  destruct (Z.leb_spec 3 level); [reflexivity|].
  destruct (Z.leb_spec 2 level), (Z.eqb_spec level 2); try reflexivity; lia.
Qed.

Lemma suggest_spec (add_heavy has_elevator : bool) (floors_total num_images : Z) :
  suggest add_heavy has_elevator floors_total num_images [] =
  (spec_level add_heavy has_elevator floors_total num_images,
   spec_reasons add_heavy has_elevator floors_total num_images false).
Proof.
  unfold suggest, spec_level, spec_reasons.
  case_rules add_heavy has_elevator floors_total num_images; reflexivity.
Qed.

Lemma spec_reasons_enforced (add_heavy has_elevator : bool)
    (floors_total num_images : Z) (enforced : bool) :
  spec_reasons add_heavy has_elevator floors_total num_images enforced =
  spec_reasons add_heavy has_elevator floors_total num_images false
  ++ (if enforced then ["vision_place_size_minimum"] else []).
Proof.
  unfold spec_reasons. rewrite !app_nil_r, <- !app_assoc. reflexivity.
Qed.

Lemma enforce_minimum_spec (estimated minimum : tier) (reasons : list string) :
  enforce_minimum (tier_name estimated) (tier_name minimum) reasons =
  (tier_name (if spec_minimum_enforced estimated minimum then minimum else estimated),
   reasons ++ (if spec_minimum_enforced estimated minimum
               then ["vision_place_size_minimum"] else [])).
Proof.
  unfold enforce_minimum, spec_minimum_enforced.
  rewrite !dict_get_order_tier.
  destruct (tier_ordinal estimated <? tier_ordinal minimum).
  - reflexivity.
  - rewrite app_nil_r. reflexivity.
Qed.

Lemma truck_map_unknown (place_size : string) :
  Forall (fun e => fst e <> place_size) spec_logistics_table ->
  truck_map !! place_size = None.
Proof.
  unfold spec_logistics_table. intros H.
  repeat (apply Forall_cons_1 in H; destruct H as [? H]).
  unfold truck_map. cbn [fst] in *.
  rewrite !lookup_insert_ne by assumption.
  apply lookup_empty.
Qed.

Lemma truck_map_spec (place_size : string) :
  dict_get truck_map place_size ("small", 2, 120) = spec_logistics place_size.
Proof.
  unfold spec_logistics, spec_logistics_table. cbn [List.find fst snd].
  repeat match goal with
  | |- context [String.eqb ?k place_size] =>
      destruct (String.eqb_spec k place_size) as [<-|];
      [vm_compute; reflexivity|]
  end.
  unfold dict_get. rewrite truck_map_unknown; [reflexivity|].
  unfold spec_logistics_table. repeat constructor; assumption.
Qed.

(** ** The core against the specification *)

Section Properties.

Variable lower : string -> string.

(** The whole result, stage by stage, in the specification's vocabulary. *)
Lemma compute_recommendations_spec (req : AnalyzeRequest.t) :
  let place_size := place_size_of lower req in
  let add_heavy := add_heavy_of req in
  let floors_total := floors_total_of req in
  let has_elevator := has_elevator_of req in
  let num_images := num_images_of req in
  let estimated := spec_estimated_tier add_heavy has_elevator floors_total num_images in
  let minimum := spec_min_tier place_size in
  let enforced := spec_minimum_enforced estimated minimum in
  let final := if enforced then minimum else estimated in
  _compute_recommendations lower req =
  Recommendations.mk (tier_name final)
    (Some (fst (fst (spec_logistics place_size))))
    (Some (snd (fst (spec_logistics place_size))))
    (Some (spec_base_minutes place_size
           + spec_elevator_penalty has_elevator floors_total))
    (spec_reasons add_heavy has_elevator floors_total num_images enforced)
    (base_conf_of num_images)
    (rec_services_of (tier_name final)).
Proof.
  intros. unfold _compute_recommendations.
  fold place_size add_heavy floors_total has_elevator num_images.
  rewrite suggest_spec, svc_of_level_spec, min_service_of_spec.
  fold estimated minimum.
  rewrite enforce_minimum_spec. fold enforced final.
  unfold logistics. rewrite truck_map_spec.
  unfold spec_base_minutes, spec_elevator_penalty.
  rewrite (spec_reasons_enforced _ _ _ _ enforced).
  destruct (spec_logistics place_size) as [[t_size workers] est_minutes].
  cbn [fst snd].
  destruct (negb has_elevator && (0 <? floors_total))%bool;
    [reflexivity | rewrite Z.add_0_r; reflexivity].
Qed.

Lemma spec_estimated_tier_add_heavy (has_elevator : bool) (floors_total num_images : Z) :
  spec_estimated_tier true has_elevator floors_total num_images = Heavy.
Proof.
  unfold spec_estimated_tier, spec_level, spec_tier_of_level.
  destruct (negb has_elevator && (3 <=? floors_total))%bool,
    (12 <=? num_images), (6 <=? num_images); reflexivity.
Qed.

Lemma heavy_never_enforced (minimum : tier) :
  spec_minimum_enforced Heavy minimum = false.
Proof. destruct minimum; reflexivity. Qed.

Lemma light_minimum_never_enforced (estimated : tier) :
  spec_minimum_enforced estimated Light = false.
Proof. destruct estimated; reflexivity. Qed.

Lemma confidence_of_request (req : AnalyzeRequest.t) :
  Recommendations.confidence (_compute_recommendations lower req)
  = base_conf_of (num_images_of req).
Proof. rewrite compute_recommendations_spec. reflexivity. Qed.

(** C1: for every request, the final service_type is one of the three tiers
    and its ordinal (light=0, medium=1, heavy=2) is at least the ordinal of
    the minimum tier that the sequential prefix rules of section 4.3 derive
    from the place size. *)
Theorem service_type_at_least_minimum (req : AnalyzeRequest.t) :
  exists final : tier,
    Recommendations.service_type (_compute_recommendations lower req)
    = tier_name final
    /\ min_service_of (place_size_of lower req)
       = tier_name (spec_min_tier (place_size_of lower req))
    /\ tier_ordinal (spec_min_tier (place_size_of lower req))
       <= tier_ordinal final.
Proof.
  rewrite compute_recommendations_spec. cbn [Recommendations.service_type].
  eexists. split; [reflexivity|]. split; [apply min_service_of_spec|].
  unfold spec_minimum_enforced.
  destruct (Z.ltb_spec
    (tier_ordinal (spec_estimated_tier (add_heavy_of req) (has_elevator_of req)
                     (floors_total_of req) (num_images_of req)))
    (tier_ordinal (spec_min_tier (place_size_of lower req)))); lia.
Qed.

(** C2: when add_heavy is truthy the reasons contain
    "vision_add_heavy_context" and the final service_type is "heavy",
    whatever the place size, floors, elevator flag and images are. *)
Theorem add_heavy_gives_heavy (req : AnalyzeRequest.t) :
  add_heavy_of req = true ->
  In "vision_add_heavy_context"
     (Recommendations.reasons (_compute_recommendations lower req))
  /\ Recommendations.service_type (_compute_recommendations lower req) = "heavy".
Proof.
  intros Hheavy. rewrite compute_recommendations_spec, Hheavy.
  rewrite spec_estimated_tier_add_heavy, heavy_never_enforced.
  cbn [Recommendations.reasons Recommendations.service_type].
  split; [|reflexivity].
  unfold spec_reasons. apply in_or_app. left. left. reflexivity.
Qed.

(** C3: with a truthy has_elevator, estimated_minutes is exactly the base
    minutes of the section 4.4 table entry of the (normalised) place size,
    120 for an unknown size; with a falsy has_elevator and
    floors_total = f > 0 it is that base plus 20*f. *)
Theorem estimated_minutes_base_and_penalty (req : AnalyzeRequest.t) :
  (has_elevator_of req = true ->
   Recommendations.estimated_minutes (_compute_recommendations lower req)
   = Some (spec_base_minutes (place_size_of lower req)))
  /\ (forall f : Z,
        has_elevator_of req = false -> floors_total_of req = f -> 0 < f ->
        Recommendations.estimated_minutes (_compute_recommendations lower req)
        = Some (spec_base_minutes (place_size_of lower req) + 20 * f))
  /\ (truck_map !! place_size_of lower req = None ->
      spec_base_minutes (place_size_of lower req) = 120).
Proof.
  rewrite compute_recommendations_spec.
  cbn [Recommendations.estimated_minutes]. unfold spec_elevator_penalty.
  split; [|split].
  - intros ->. cbn [negb andb]. f_equal. lia.
  - intros f -> -> Hf. apply Z.ltb_lt in Hf. rewrite Hf.
    cbn [negb andb]. f_equal. lia.
  - intros Hkey. unfold spec_base_minutes. rewrite <- truck_map_spec.
    unfold dict_get. rewrite Hkey. reflexivity.
Qed.

(** C4: confidence is exactly 0.85 for at least 10 image URLs, exactly 0.78
    for at least 5 and fewer than 10, exactly 0.70 otherwise; so it is
    monotone non-decreasing in the number of images. *)
Theorem confidence_bands_and_monotone :
  (forall req : AnalyzeRequest.t,
     10 <= num_images_of req ->
     Recommendations.confidence (_compute_recommendations lower req) = 0.85%float)
  /\ (forall req : AnalyzeRequest.t,
        5 <= num_images_of req < 10 ->
        Recommendations.confidence (_compute_recommendations lower req) = 0.78%float)
  /\ (forall req : AnalyzeRequest.t,
        num_images_of req < 5 ->
        Recommendations.confidence (_compute_recommendations lower req) = 0.7%float)
  /\ (forall req1 req2 : AnalyzeRequest.t,
        num_images_of req1 <= num_images_of req2 ->
        PrimFloat.leb
          (Recommendations.confidence (_compute_recommendations lower req1))
          (Recommendations.confidence (_compute_recommendations lower req2))
        = true).
Proof.
  repeat split; intros; rewrite !confidence_of_request; unfold base_conf_of.
  - destruct (Z.leb_spec 10 (num_images_of req)); [reflexivity | lia].
  - destruct (Z.leb_spec 10 (num_images_of req)); [lia|].
    destruct (Z.leb_spec 5 (num_images_of req)); [reflexivity | lia].
  - destruct (Z.leb_spec 10 (num_images_of req)); [lia|].
    destruct (Z.leb_spec 5 (num_images_of req)); [lia | reflexivity].
  - destruct (Z.leb_spec 10 (num_images_of req1)),
      (Z.leb_spec 5 (num_images_of req1)),
      (Z.leb_spec 10 (num_images_of req2)),
      (Z.leb_spec 5 (num_images_of req2)); try lia; reflexivity.
Qed.

(** C5: recommended_services is never empty; it is ["heavy"], of length 1,
    exactly when the final service_type is "heavy", and of length 2
    otherwise (["light","medium"] for light, ["medium","heavy"] for
    medium); its first element is always the service_type. *)
Theorem recommended_services_shape (req : AnalyzeRequest.t) :
  let result := _compute_recommendations lower req in
  let svc := Recommendations.service_type result in
  let services := Recommendations.recommended_services result in
  services <> []
  /\ (length services = 1%nat <-> svc = "heavy")
  /\ (svc = "heavy" -> services = ["heavy"])
  /\ (svc <> "heavy" -> length services = 2%nat)
  /\ (svc = "light" /\ services = ["light"; "medium"]
      \/ svc = "medium" /\ services = ["medium"; "heavy"]
      \/ svc = "heavy" /\ services = ["heavy"])
  /\ head services = Some svc.
Proof.
  rewrite compute_recommendations_spec.
  cbn [Recommendations.service_type Recommendations.recommended_services].
  match goal with |- context [tier_name ?t] => destruct t end;
    vm_compute; repeat split; auto; try discriminate; try congruence.
Qed.
Lemma spec_min_tier_no_prefix (place_size : string) :
  Forall (fun p => startswith place_size p = false) spec_min_prefixes ->
  spec_min_tier place_size = Light.
Proof.
  unfold spec_min_prefixes, spec_min_rules. cbn [map fst concat app].
  intros H. repeat (apply Forall_cons_1 in H; destruct H as [? H]).
  unfold spec_min_tier, spec_min_rules. cbn [fold_left existsb fst snd].
  repeat match goal with E : startswith _ _ = false |- _ => rewrite E; clear E end.
  reflexivity.
Qed.

(** C6: when the lower-cased place size is not a key of the logistics table
    and starts with none of the minimum-tier prefixes, the core returns
    truck_size "small", workers 2 and estimated_minutes 120 plus the
    elevator penalty when it applies; the minimum is light, so none is
    enforced: the service_type is the estimated tier and
    "vision_place_size_minimum" is not among the reasons. *)
Theorem unknown_place_size_defaults (req : AnalyzeRequest.t) :
  truck_map !! place_size_of lower req = None ->
  Forall (fun p => startswith (place_size_of lower req) p = false)
    spec_min_prefixes ->
  let result := _compute_recommendations lower req in
  Recommendations.truck_size result = Some "small"
  /\ Recommendations.workers result = Some 2
  /\ Recommendations.estimated_minutes result
     = Some (120 + spec_elevator_penalty (has_elevator_of req) (floors_total_of req))
  /\ min_service_of (place_size_of lower req) = "light"
  /\ Recommendations.service_type result
     = tier_name (spec_estimated_tier (add_heavy_of req) (has_elevator_of req)
                    (floors_total_of req) (num_images_of req))
  /\ ~ In "vision_place_size_minimum" (Recommendations.reasons result).
Proof.
  intros Hkey Hprefix result. subst result.
  assert (Hlog : spec_logistics (place_size_of lower req) = ("small", 2, 120)).
  { rewrite <- truck_map_spec. unfold dict_get. rewrite Hkey. reflexivity. }
  pose proof (spec_min_tier_no_prefix _ Hprefix) as Hmin.
  rewrite compute_recommendations_spec, min_service_of_spec.
  unfold spec_base_minutes. rewrite Hlog, Hmin, light_minimum_never_enforced.
  cbn [Recommendations.truck_size Recommendations.workers
       Recommendations.estimated_minutes Recommendations.service_type
       Recommendations.reasons fst snd tier_name].
  repeat split.
  unfold spec_reasons.
  case_rules (add_heavy_of req) (has_elevator_of req) (floors_total_of req)
    (num_images_of req); cbn; intuition discriminate.
Qed.

(** C7: the reasons are exactly the reason codes of the rules that fired, in
    the order of evaluation: "vision_add_heavy_context" (add_heavy), then
    "vision_multi_floor_no_elevator" (no elevator and floors_total >= 3),
    then "vision_many_images_high_volume" (image count >= 12) or else
    "vision_medium_images_volume" (image count >= 6), never both, then
    "vision_place_size_minimum" last (the minimum tier was enforced). *)
Theorem reasons_in_evaluation_order (req : AnalyzeRequest.t) :
  let add_heavy := add_heavy_of req in
  let has_elevator := has_elevator_of req in
  let floors_total := floors_total_of req in
  let num_images := num_images_of req in
  let enforced :=
    spec_minimum_enforced
      (spec_estimated_tier add_heavy has_elevator floors_total num_images)
      (spec_min_tier (place_size_of lower req)) in
  let reasons := Recommendations.reasons (_compute_recommendations lower req) in
  reasons =
    (if add_heavy then ["vision_add_heavy_context"] else [])
    ++ (if (negb has_elevator && (3 <=? floors_total))%bool
        then ["vision_multi_floor_no_elevator"] else [])
    ++ (if 12 <=? num_images then ["vision_many_images_high_volume"]
        else if 6 <=? num_images then ["vision_medium_images_volume"]
        else [])
    ++ (if enforced then ["vision_place_size_minimum"] else [])
  /\ ~ (In "vision_many_images_high_volume" reasons
        /\ In "vision_medium_images_volume" reasons).
Proof.
  intros. subst reasons. rewrite compute_recommendations_spec.
  cbn [Recommendations.reasons].
  fold add_heavy has_elevator floors_total num_images enforced.
  split; [reflexivity|].
  unfold spec_reasons.
  case_rules add_heavy has_elevator floors_total num_images;
    destruct enforced; cbn; intuition discriminate.
Qed.

(** C8: for place_size "villa_350_500", add_heavy 0, has_elevator 1, both
    floors 0 and no image, the core returns service_type "heavy" with
    "vision_place_size_minimum" among the reasons, truck_size "xxl",
    5 workers, 480 minutes, confidence 0.70 and recommended_services
    ["heavy"]. *)
Theorem villa_350_500_example (mode : string) (video_url place_type hint : option string) :
  lower "villa_350_500" = "villa_350_500" ->
  let req :=
    AnalyzeRequest.mk mode video_url []
      (Context.mk place_type (Some "villa_350_500") (Some 0) (Some 0)
         (Some 1) (Some 0) hint) in
  let result := _compute_recommendations lower req in
  Recommendations.service_type result = "heavy"
  /\ In "vision_place_size_minimum" (Recommendations.reasons result)
  /\ Recommendations.truck_size result = Some "xxl"
  /\ Recommendations.workers result = Some 5
  /\ Recommendations.estimated_minutes result = Some 480
  /\ Recommendations.confidence result = 0.7%float
  /\ Recommendations.recommended_services result = ["heavy"].
Proof.
  intros Hlower req result. subst result req.
  unfold _compute_recommendations, place_size_of.
  cbn [AnalyzeRequest.context Context.place_size or_str bool_str].
  change (String.eqb "villa_350_500" "") with false. cbn [negb].
  rewrite Hlower. vm_compute. repeat split. left. reflexivity.
Qed.

(** C9: two requests with the same place_size, pickup_floor,
    destination_floor, has_elevator, add_heavy and number of image URLs get
    the same recommendations: mode, video_url, place_type, the service_type
    hint and the contents and order of the image URLs have no influence. *)
Theorem output_depends_only_on_signals (req1 req2 : AnalyzeRequest.t) :
  Context.place_size (AnalyzeRequest.context req1)
  = Context.place_size (AnalyzeRequest.context req2) ->
  Context.pickup_floor (AnalyzeRequest.context req1)
  = Context.pickup_floor (AnalyzeRequest.context req2) ->
  Context.destination_floor (AnalyzeRequest.context req1)
  = Context.destination_floor (AnalyzeRequest.context req2) ->
  Context.has_elevator (AnalyzeRequest.context req1)
  = Context.has_elevator (AnalyzeRequest.context req2) ->
  Context.add_heavy (AnalyzeRequest.context req1)
  = Context.add_heavy (AnalyzeRequest.context req2) ->
  length (AnalyzeRequest.image_urls req1) = length (AnalyzeRequest.image_urls req2) ->
  _compute_recommendations lower req1 = _compute_recommendations lower req2.
Proof.
  intros Hsize Hpickup Hdest Helev Hheavy Hlen.
  unfold _compute_recommendations, place_size_of, add_heavy_of, floors_total_of,
    has_elevator_of, num_images_of.
  rewrite Hsize, Hpickup, Hdest, Helev, Hheavy, Hlen. reflexivity.
Qed.

(** C10: the reasons have no duplicate and at most 3 elements;
    "vision_add_heavy_context" and "vision_place_size_minimum" never occur
    together. *)
Theorem reasons_distinct_and_bounded (req : AnalyzeRequest.t) :
  let reasons := Recommendations.reasons (_compute_recommendations lower req) in
  List.NoDup reasons
  /\ (length reasons <= 3)%nat
  /\ ~ (In "vision_add_heavy_context" reasons
        /\ In "vision_place_size_minimum" reasons).
Proof.
  intros reasons. subst reasons. rewrite compute_recommendations_spec.
  cbn [Recommendations.reasons].
  unfold spec_reasons, spec_estimated_tier, spec_level.
  case_rules (add_heavy_of req) (has_elevator_of req) (floors_total_of req)
    (num_images_of req);
    destruct (spec_min_tier (place_size_of lower req));
    vm_compute; (split; [| split; [lia | intuition discriminate]]);
    repeat (constructor; [cbn; intuition discriminate|]); constructor.
Qed.

End Properties.

(** ** The theorems at concrete requests *)

(** Section 8, last example: a small flat with heavy items. *)
Example heavy_items_example :
  _compute_recommendations str_lower_ascii example_heavy_items =
  Recommendations.mk "heavy" (Some "small") (Some 2) (Some 90)
    ["vision_add_heavy_context"] 0.7%float ["heavy"].
Proof. vm_compute. reflexivity. Qed.

(** Upper-case place sizes are lower-cased before every lookup. *)
Example stairs_example :
  _compute_recommendations str_lower_ascii example_stairs =
  Recommendations.mk "medium" (Some "large") (Some 4) (Some 300)
    ["vision_multi_floor_no_elevator"] 0.7%float ["medium"; "heavy"].
Proof. vm_compute. reflexivity. Qed.

Lemma add_heavy_gives_heavy_witness :
  add_heavy_of example_heavy_items = true
  /\ In "vision_add_heavy_context"
       (Recommendations.reasons
          (_compute_recommendations str_lower_ascii example_heavy_items))
  /\ Recommendations.service_type
       (_compute_recommendations str_lower_ascii example_heavy_items) = "heavy".
Proof.
  split; [reflexivity|].
  apply (add_heavy_gives_heavy str_lower_ascii example_heavy_items).
  reflexivity.
Defined.

Lemma estimated_minutes_base_and_penalty_witness :
  (has_elevator_of example_with_elevator = true
   /\ Recommendations.estimated_minutes
        (_compute_recommendations str_lower_ascii example_with_elevator)
      = Some 240)
  /\ (has_elevator_of example_stairs = false
      /\ floors_total_of example_stairs = 3
      /\ Recommendations.estimated_minutes
           (_compute_recommendations str_lower_ascii example_stairs)
         = Some (240 + 20 * 3)).
Proof.
  split.
  - split; [reflexivity|].
    apply (proj1 (estimated_minutes_base_and_penalty str_lower_ascii
                    example_with_elevator)).
    reflexivity.
  - split; [reflexivity | split; [reflexivity|]].
    apply (proj1 (proj2 (estimated_minutes_base_and_penalty str_lower_ascii
                           example_stairs)) 3); [reflexivity | reflexivity | lia].
Defined.

Lemma confidence_bands_and_monotone_witness :
  Recommendations.confidence
    (_compute_recommendations str_lower_ascii (example_images 10)) = 0.85%float
  /\ Recommendations.confidence
       (_compute_recommendations str_lower_ascii (example_images 5)) = 0.78%float
  /\ Recommendations.confidence
       (_compute_recommendations str_lower_ascii (example_images 4)) = 0.7%float
  /\ PrimFloat.leb
       (Recommendations.confidence
          (_compute_recommendations str_lower_ascii (example_images 4)))
       (Recommendations.confidence
          (_compute_recommendations str_lower_ascii (example_images 10))) = true.
Proof.
  destruct (confidence_bands_and_monotone str_lower_ascii)
    as (Hhigh & Hmid & Hlow & Hmono).
  split; [apply Hhigh; vm_compute; discriminate|].
  split; [apply Hmid; vm_compute; split; [discriminate | reflexivity]|].
  split; [apply Hlow; reflexivity|].
  apply Hmono. vm_compute. discriminate.
Defined.

Lemma unknown_place_size_defaults_witness :
  truck_map !! place_size_of str_lower_ascii example_unknown_size = None
  /\ Recommendations.truck_size
       (_compute_recommendations str_lower_ascii example_unknown_size)
     = Some "small"
  /\ Recommendations.workers
       (_compute_recommendations str_lower_ascii example_unknown_size)
     = Some 2
  /\ Recommendations.estimated_minutes
       (_compute_recommendations str_lower_ascii example_unknown_size)
     = Some (120 + 40)
  /\ Recommendations.service_type
       (_compute_recommendations str_lower_ascii example_unknown_size)
     = "light".
Proof.
  assert (Hkey : truck_map !! place_size_of str_lower_ascii example_unknown_size
                 = None) by (vm_compute; reflexivity).
  assert (Hprefix :
    Forall (fun p => startswith (place_size_of str_lower_ascii example_unknown_size) p
                     = false) spec_min_prefixes)
    by (repeat constructor).
  destruct (unknown_place_size_defaults str_lower_ascii example_unknown_size
              Hkey Hprefix) as (Htruck & Hworkers & Hminutes & _ & Hsvc & _).
  repeat split; assumption.
Defined.

Lemma villa_350_500_example_witness :
  str_lower_ascii "villa_350_500" = "villa_350_500"
  /\ Recommendations.service_type
       (_compute_recommendations str_lower_ascii example_villa) = "heavy"
  /\ In "vision_place_size_minimum"
       (Recommendations.reasons
          (_compute_recommendations str_lower_ascii example_villa))
  /\ Recommendations.truck_size
       (_compute_recommendations str_lower_ascii example_villa) = Some "xxl"
  /\ Recommendations.workers
       (_compute_recommendations str_lower_ascii example_villa) = Some 5
  /\ Recommendations.estimated_minutes
       (_compute_recommendations str_lower_ascii example_villa) = Some 480
  /\ Recommendations.confidence
       (_compute_recommendations str_lower_ascii example_villa) = 0.7%float
  /\ Recommendations.recommended_services
       (_compute_recommendations str_lower_ascii example_villa) = ["heavy"].
Proof.
  split; [reflexivity|].
  apply (villa_350_500_example str_lower_ascii "images" None None None).
  reflexivity.
Defined.

Lemma output_depends_only_on_signals_witness :
  example_video <> example_images_only
  /\ _compute_recommendations str_lower_ascii example_video
     = _compute_recommendations str_lower_ascii example_images_only.
Proof.
  split; [discriminate|].
  apply (output_depends_only_on_signals str_lower_ascii
           example_video example_images_only); reflexivity.
Defined.

(** ** Further properties of the core *)

(** Two prefixes of one string: one is a prefix of the other. *)
Lemma prefix_common (s p q : string) :
  String.prefix p s = true -> String.prefix q s = true ->
  String.prefix p q = true \/ String.prefix q p = true.
Proof.
  revert p q.
  induction s as [|c s IH]; intros [|a p] [|b q]; cbn; auto; try discriminate.
  destruct (ascii_dec a c) as [->|], (ascii_dec b c) as [->|]; try discriminate.
  destruct (ascii_dec c c); [apply IH | congruence].
Qed.

Lemma startswith_disjoint (p q s : string) :
  String.prefix p q = false -> String.prefix q p = false ->
  startswith s p = true -> startswith s q = false.
Proof.
  unfold startswith. intros Hpq Hqp Hp.
  destruct (String.prefix q s) eqn:Hq; [|reflexivity].
  destruct (prefix_common s p q Hp Hq); congruence.
Qed.

(** The minimum service without the order of the rules. *)
Lemma min_service_of_by_cases (place_size : string) :
  min_service_of place_size =
  if (startswith place_size "villa_350_500"
      || startswith place_size "comm_150_250")%bool then "heavy"
  else if (startswith place_size "s3_" || startswith place_size "s4_"
           || startswith place_size "villa_250_350"
           || startswith place_size "comm_100_150")%bool then "medium"
  else "light".
Proof.
  unfold min_service_of.
  destruct (startswith place_size "villa_350_500") eqn:Hvilla.
  - rewrite (startswith_disjoint "villa_350_500" "comm_100_150" _ eq_refl eq_refl Hvilla).
    reflexivity.
  - destruct (startswith place_size "comm_150_250") eqn:Hcomm.
    + rewrite (startswith_disjoint "comm_150_250" "comm_100_150" _ eq_refl eq_refl Hcomm).
      reflexivity.
    + destruct (startswith place_size "s3_"), (startswith place_size "s4_"),
        (startswith place_size "villa_250_350"),
        (startswith place_size "comm_100_150"); reflexivity.
Qed.

Lemma spec_min_tier_heavy (place_size : string) :
  spec_min_tier place_size = Heavy <->
  startswith place_size "villa_350_500" = true
  \/ startswith place_size "comm_150_250" = true.
Proof.
  pose proof (min_service_of_by_cases place_size) as H.
  rewrite min_service_of_spec in H.
  destruct (startswith place_size "villa_350_500"),
    (startswith place_size "comm_150_250"),
    (startswith place_size "s3_" || startswith place_size "s4_"
     || startswith place_size "villa_250_350"
     || startswith place_size "comm_100_150")%bool,
    (spec_min_tier place_size);
    cbn in H; try discriminate H; intuition discriminate.
Qed.

Lemma final_tier_ordinal (estimated minimum : tier) :
  tier_ordinal (if spec_minimum_enforced estimated minimum then minimum else estimated)
  = Z.max (tier_ordinal estimated) (tier_ordinal minimum).
Proof. destruct estimated, minimum; reflexivity. Qed.

Lemma spec_level_monotone (h1 h2 e1 e2 : bool) (f1 f2 n1 n2 : Z) :
  (h1 = true -> h2 = true) -> (e2 = true -> e1 = true) ->
  f1 <= f2 -> n1 <= n2 ->
  spec_level h1 e1 f1 n1 <= spec_level h2 e2 f2 n2.
Proof.
  intros Hh He Hf Hn. unfold spec_level.
  destruct h1, h2; try (specialize (Hh eq_refl); discriminate Hh);
  destruct e1, e2; try (specialize (He eq_refl); discriminate He);
  cbn [negb andb];
  destruct (Z.leb_spec 3 f1), (Z.leb_spec 3 f2),
    (Z.leb_spec 12 n1), (Z.leb_spec 12 n2),
    (Z.leb_spec 6 n1), (Z.leb_spec 6 n2); lia.
Qed.

Lemma spec_tier_of_level_monotone (l1 l2 : Z) :
  1 <= l1 -> l1 <= l2 ->
  tier_ordinal (spec_tier_of_level l1) <= tier_ordinal (spec_tier_of_level l2).
Proof.
  intros H1 H. unfold spec_tier_of_level.
  destruct (Z.leb_spec 3 l1), (Z.leb_spec 3 l2),
    (Z.eqb_spec l1 2), (Z.eqb_spec l2 2); cbn; lia.
Qed.

Lemma spec_level_at_least_1 (h e : bool) (f n : Z) : 1 <= spec_level h e f n.
Proof. unfold spec_level. destruct h; lia. Qed.

Lemma spec_logistics_range (place_size : string) :
  In (fst (fst (spec_logistics place_size))) ["small"; "medium"; "large"; "xl"; "xxl"]
  /\ 2 <= snd (fst (spec_logistics place_size)) <= 5
  /\ 90 <= snd (spec_logistics place_size) <= 480.
Proof.
  unfold spec_logistics, spec_logistics_table. cbn [List.find fst snd].
  repeat match goal with
  | |- context [String.eqb ?k place_size] => destruct (String.eqb k place_size)
  end; cbn; intuition lia.
Qed.

Section MoreProperties.

Variable lower : string -> string.

(** X1: the final tier is the larger of the tier estimated from the signals
    and the minimum of the place size, measured in the code's own [order]. *)
Theorem final_tier_is_maximum (req : AnalyzeRequest.t) :
  let level :=
    fst (suggest (add_heavy_of req) (has_elevator_of req) (floors_total_of req)
           (num_images_of req) []) in
  dict_get order
    (Recommendations.service_type (_compute_recommendations lower req)) 0
  = Z.max (dict_get order (svc_of_level level) 0)
      (dict_get order (min_service_of (place_size_of lower req)) 0).
Proof.
  intros level. subst level.
  rewrite compute_recommendations_spec, suggest_spec, svc_of_level_spec,
    min_service_of_spec.
  cbn [fst Recommendations.service_type].
  rewrite !dict_get_order_tier. apply final_tier_ordinal.
Qed.

(** X2: the reasons are empty exactly when the service_type is "light":
    every recommendation above light carries at least one reason. *)
Theorem reasons_empty_iff_light (req : AnalyzeRequest.t) :
  Recommendations.reasons (_compute_recommendations lower req) = []
  <-> Recommendations.service_type (_compute_recommendations lower req) = "light".
Proof.
  rewrite compute_recommendations_spec.
  cbn [Recommendations.reasons Recommendations.service_type].
  unfold spec_reasons, spec_estimated_tier, spec_level.
  case_rules (add_heavy_of req) (has_elevator_of req) (floors_total_of req)
    (num_images_of req);
    destruct (spec_min_tier (place_size_of lower req));
    vm_compute; split; intros H; try discriminate H; reflexivity.
Qed.

(** X3: "vision_place_size_minimum" is among the reasons exactly when the
    service_type differs from the tier that the signals alone suggest; the
    service_type is then the minimum service of the place size. *)
Theorem minimum_reason_iff_raised (req : AnalyzeRequest.t) :
  let level :=
    fst (suggest (add_heavy_of req) (has_elevator_of req) (floors_total_of req)
           (num_images_of req) []) in
  let result := _compute_recommendations lower req in
  (In "vision_place_size_minimum" (Recommendations.reasons result)
   <-> Recommendations.service_type result <> svc_of_level level)
  /\ (In "vision_place_size_minimum" (Recommendations.reasons result) ->
      Recommendations.service_type result
      = min_service_of (place_size_of lower req)).
Proof.
  intros level result. subst level result.
  rewrite compute_recommendations_spec, suggest_spec, svc_of_level_spec,
    min_service_of_spec.
  cbn [fst Recommendations.reasons Recommendations.service_type].
  unfold spec_reasons, spec_estimated_tier, spec_level.
  case_rules (add_heavy_of req) (has_elevator_of req) (floors_total_of req)
    (num_images_of req);
    destruct (spec_min_tier (place_size_of lower req));
    vm_compute; intuition (discriminate || congruence).
Qed.

End MoreProperties.

Lemma medium_prefix_not_heavy (place_size : string) :
  existsb (startswith place_size) ["s3_"; "s4_"; "villa_250_350"; "comm_100_150"]
  = true ->
  existsb (startswith place_size) ["villa_350_500"; "comm_150_250"] = false.
Proof.
  cbn [existsb]. rewrite !orb_false_r. intros H.
  repeat (apply orb_prop in H; destruct H as [H|H]);
    match type of H with
    | startswith _ ?p = true =>
        rewrite (startswith_disjoint p "villa_350_500" _ eq_refl eq_refl H),
          (startswith_disjoint p "comm_150_250" _ eq_refl eq_refl H)
    end;
    reflexivity.
Qed.

(** X4: the order of the four minimum-service rules has no influence, as no
    place size matches prefixes of two different tiers: the minimum is
    "heavy" exactly for the prefixes villa_350_500 and comm_150_250,
    "medium" exactly for s3_, s4_, villa_250_350 and comm_100_150, and
    "light" exactly when no prefix matches. *)
Theorem min_service_order_free (place_size : string) :
  (min_service_of place_size = "heavy" <->
   existsb (startswith place_size) ["villa_350_500"; "comm_150_250"] = true)
  /\ (min_service_of place_size = "medium" <->
      existsb (startswith place_size)
        ["s3_"; "s4_"; "villa_250_350"; "comm_100_150"] = true)
  /\ (min_service_of place_size = "light" <->
      existsb (startswith place_size)
        ["s3_"; "s4_"; "villa_250_350"; "villa_350_500"; "comm_150_250";
         "comm_100_150"] = false).
Proof.
  pose proof (medium_prefix_not_heavy place_size) as Hdisj.
  rewrite min_service_of_by_cases. cbn [existsb] in *.
  rewrite !orb_false_r in *.
  destruct (startswith place_size "villa_350_500"),
    (startswith place_size "comm_150_250"),
    (startswith place_size "s3_"), (startswith place_size "s4_"),
    (startswith place_size "villa_250_350"),
    (startswith place_size "comm_100_150");
    cbn in *; try (specialize (Hdisj eq_refl); discriminate Hdisj);
    repeat split; intros; try discriminate; reflexivity.
Qed.

Section MoreProperties2.

Variable lower : string -> string.

(** X5: the service_type is "heavy" exactly when add_heavy is truthy, or at
    least 12 images were sent, or the place size starts with villa_350_500
    or comm_150_250; floors and elevator alone never give heavy. *)
Theorem service_type_heavy_iff (req : AnalyzeRequest.t) :
  Recommendations.service_type (_compute_recommendations lower req) = "heavy"
  <-> add_heavy_of req = true
      \/ 12 <= num_images_of req
      \/ startswith (place_size_of lower req) "villa_350_500" = true
      \/ startswith (place_size_of lower req) "comm_150_250" = true.
Proof.
  rewrite compute_recommendations_spec. cbn [Recommendations.service_type].
  pose proof (spec_min_tier_heavy (place_size_of lower req)) as Hheavy.
  unfold spec_estimated_tier, spec_level.
  destruct (add_heavy_of req),
    (negb (has_elevator_of req) && (3 <=? floors_total_of req))%bool,
    (Z.leb_spec 12 (num_images_of req)),
    (Z.leb_spec 6 (num_images_of req)),
    (spec_min_tier (place_size_of lower req));
    cbn; intuition (try discriminate; try lia).
Qed.

(** X6: the service_type is "light" exactly when no rule fires: add_heavy
    is falsy, there is an elevator or fewer than 3 floors in total, fewer
    than 6 images, and the place size has minimum service "light". *)
Theorem service_type_light_iff (req : AnalyzeRequest.t) :
  Recommendations.service_type (_compute_recommendations lower req) = "light"
  <-> add_heavy_of req = false
      /\ (has_elevator_of req = true \/ floors_total_of req < 3)
      /\ num_images_of req < 6
      /\ min_service_of (place_size_of lower req) = "light".
Proof.
  rewrite compute_recommendations_spec, min_service_of_spec.
  cbn [Recommendations.service_type].
  unfold spec_estimated_tier, spec_level.
  destruct (add_heavy_of req), (has_elevator_of req),
    (Z.leb_spec 3 (floors_total_of req)),
    (Z.leb_spec 12 (num_images_of req)),
    (Z.leb_spec 6 (num_images_of req)),
    (spec_min_tier (place_size_of lower req));
    cbn; intuition (try discriminate; try lia).
Qed.

(** X7: stronger signals never lower the tier.  For the same place size,
    turning add_heavy on, losing the elevator, adding floors or adding
    images leaves the ordinal of the service_type equal or higher. *)
Theorem service_type_monotone (req1 req2 : AnalyzeRequest.t) :
  place_size_of lower req1 = place_size_of lower req2 ->
  (add_heavy_of req1 = true -> add_heavy_of req2 = true) ->
  (has_elevator_of req2 = true -> has_elevator_of req1 = true) ->
  floors_total_of req1 <= floors_total_of req2 ->
  num_images_of req1 <= num_images_of req2 ->
  dict_get order
    (Recommendations.service_type (_compute_recommendations lower req1)) 0
  <= dict_get order
       (Recommendations.service_type (_compute_recommendations lower req2)) 0.
Proof.
  intros Hsize Hheavy Helev Hfloors Himages.
  rewrite !compute_recommendations_spec. cbn [Recommendations.service_type].
  rewrite !dict_get_order_tier, !final_tier_ordinal, Hsize.
  apply Z.max_le_compat_r. unfold spec_estimated_tier.
  apply spec_tier_of_level_monotone; [apply spec_level_at_least_1|].
  apply spec_level_monotone; assumption.
Qed.

(** X8: for the same place size, losing the elevator or adding floors never
    shortens the estimated time. *)
Theorem estimated_minutes_monotone (req1 req2 : AnalyzeRequest.t) (m1 m2 : Z) :
  place_size_of lower req1 = place_size_of lower req2 ->
  (has_elevator_of req2 = true -> has_elevator_of req1 = true) ->
  floors_total_of req1 <= floors_total_of req2 ->
  Recommendations.estimated_minutes (_compute_recommendations lower req1) = Some m1 ->
  Recommendations.estimated_minutes (_compute_recommendations lower req2) = Some m2 ->
  m1 <= m2.
Proof.
  intros Hsize Helev Hfloors.
  rewrite !compute_recommendations_spec. cbn [Recommendations.estimated_minutes].
  rewrite Hsize. intros [= <-] [= <-]. unfold spec_elevator_penalty.
  destruct (has_elevator_of req1), (has_elevator_of req2);
    try (specialize (Helev eq_refl); discriminate Helev);
    cbn [negb andb];
    destruct (Z.ltb_spec 0 (floors_total_of req1)),
      (Z.ltb_spec 0 (floors_total_of req2)); lia.
Qed.

(** X9: every result is fully populated and within the table's ranges: the
    truck size is one of small, medium, large, xl, xxl, the crew has 2 to 5
    workers, and the estimated time is at least 90 minutes, at most 480
    when there is an elevator. *)
Theorem logistics_ranges (req : AnalyzeRequest.t) :
  exists (t_size : string) (workers est_minutes : Z),
    Recommendations.truck_size (_compute_recommendations lower req) = Some t_size
    /\ Recommendations.workers (_compute_recommendations lower req) = Some workers
    /\ Recommendations.estimated_minutes (_compute_recommendations lower req)
       = Some est_minutes
    /\ In t_size ["small"; "medium"; "large"; "xl"; "xxl"]
    /\ 2 <= workers <= 5
    /\ 90 <= est_minutes
    /\ (has_elevator_of req = true -> est_minutes <= 480).
Proof.
  rewrite compute_recommendations_spec.
  cbn [Recommendations.truck_size Recommendations.workers
       Recommendations.estimated_minutes].
  do 3 eexists. do 3 (split; [reflexivity|]).
  destruct (spec_logistics_range (place_size_of lower req)) as (Ht & Hw & Hm).
  unfold spec_base_minutes, spec_elevator_penalty.
  split; [exact Ht|]. split; [exact Hw|].
  destruct (has_elevator_of req); cbn [negb andb];
    destruct (Z.ltb_spec 0 (floors_total_of req)); split; intros; try lia;
    discriminate.
Qed.

(** X10: without an elevator, a floors_total that is zero or negative
    (a basement floor, or floors that cancel) adds no time and does not
    raise the tier for stairs. *)
Theorem no_penalty_without_positive_floors (req : AnalyzeRequest.t) :
  floors_total_of req <= 0 ->
  Recommendations.estimated_minutes (_compute_recommendations lower req)
  = Some (snd (dict_get truck_map (place_size_of lower req) ("small", 2, 120)))
  /\ ~ In "vision_multi_floor_no_elevator"
       (Recommendations.reasons (_compute_recommendations lower req)).
Proof.
  intros Hfloors. rewrite compute_recommendations_spec, truck_map_spec.
  cbn [Recommendations.estimated_minutes Recommendations.reasons].
  unfold spec_elevator_penalty, spec_base_minutes, spec_reasons.
  destruct (Z.ltb_spec 0 (floors_total_of req)); [lia|].
  destruct (Z.leb_spec 3 (floors_total_of req)); [lia|].
  rewrite !andb_false_r, Z.add_0_r. split; [reflexivity|].
  destruct (add_heavy_of req), (12 <=? num_images_of req),
    (6 <=? num_images_of req),
    (spec_minimum_enforced _ _); cbn; intuition discriminate.
Qed.

(** X11: the result depends on the context only through the normalised
    signals: the lower-cased place size (absent like empty), the sum of the
    two floors (absent like 0), the truthiness of has_elevator and
    add_heavy, and the number of images. *)
Theorem output_depends_only_on_normalised_signals (req1 req2 : AnalyzeRequest.t) :
  lower (or_str (Context.place_size (AnalyzeRequest.context req1)) "")
  = lower (or_str (Context.place_size (AnalyzeRequest.context req2)) "") ->
  or_int (Context.pickup_floor (AnalyzeRequest.context req1)) 0
  + or_int (Context.destination_floor (AnalyzeRequest.context req1)) 0
  = or_int (Context.pickup_floor (AnalyzeRequest.context req2)) 0
    + or_int (Context.destination_floor (AnalyzeRequest.context req2)) 0 ->
  bool_int (Context.has_elevator (AnalyzeRequest.context req1))
  = bool_int (Context.has_elevator (AnalyzeRequest.context req2)) ->
  bool_int (Context.add_heavy (AnalyzeRequest.context req1))
  = bool_int (Context.add_heavy (AnalyzeRequest.context req2)) ->
  length (AnalyzeRequest.image_urls req1) = length (AnalyzeRequest.image_urls req2) ->
  _compute_recommendations lower req1 = _compute_recommendations lower req2.
Proof.
  intros Hsize Hfloors Helev Hheavy Hlen.
  unfold _compute_recommendations, place_size_of, add_heavy_of, floors_total_of,
    has_elevator_of, num_images_of.
  rewrite Hsize, Hfloors, Helev, Hheavy, Hlen. reflexivity.
Qed.

(** X12: the logistics are looked up by the exact key and the minimum
    service by prefix.  A place size that is not a key of the table and
    starts with villa_350_500 or comm_150_250 gets service_type "heavy"
    together with the default truck "small", 2 workers and 120 minutes
    before the penalty. *)
Theorem heavy_prefix_with_default_logistics (req : AnalyzeRequest.t) :
  truck_map !! place_size_of lower req = None ->
  existsb (startswith (place_size_of lower req))
    ["villa_350_500"; "comm_150_250"] = true ->
  let result := _compute_recommendations lower req in
  Recommendations.service_type result = "heavy"
  /\ Recommendations.truck_size result = Some "small"
  /\ Recommendations.workers result = Some 2
  /\ (has_elevator_of req = true ->
      Recommendations.estimated_minutes result = Some 120).
Proof.
  intros Hkey Hprefix result. subst result.
  assert (Hmin : spec_min_tier (place_size_of lower req) = Heavy).
  { apply spec_min_tier_heavy. cbn [existsb] in Hprefix.
    rewrite orb_false_r in Hprefix. apply orb_prop in Hprefix. exact Hprefix. }
  assert (Hlog : spec_logistics (place_size_of lower req) = ("small", 2, 120)).
  { rewrite <- truck_map_spec. unfold dict_get. rewrite Hkey. reflexivity. }
  rewrite compute_recommendations_spec, Hmin.
  unfold spec_base_minutes, spec_elevator_penalty. rewrite Hlog.
  cbn [Recommendations.service_type Recommendations.truck_size
       Recommendations.workers Recommendations.estimated_minutes fst snd].
  split; [|split; [reflexivity | split; [reflexivity|]]].
  - destruct (spec_estimated_tier _ _ _ _); reflexivity.
  - intros ->. reflexivity.
Qed.

End MoreProperties2.

(** ** The request handler *)

Section HandlerProperties.

Variable lower strip : string -> string.

(** X13: the handler has two outcomes.  It raises HTTPException 401
    "Invalid secret" exactly when the stripped environment secret is not
    empty and differs from the stripped X-MCP-Secret header (absent like
    empty); otherwise it returns the core's recommendations, unchanged. *)
Theorem analyze_media_outcomes (environ : gmap string string)
    (req : AnalyzeRequest.t) (request : Request.t) :
  let expected_secret := strip (dict_get environ "MCP_COLAB_API_SECRET" "") in
  let header_secret := strip (headers_get request "X-MCP-Secret" "") in
  (analyze_media lower strip environ req request
   = inl (HTTPException.mk 401 "Invalid secret")
   /\ expected_secret <> "" /\ header_secret <> expected_secret)
  \/ (analyze_media lower strip environ req request
      = inr (AnalyzeResponse.mk (_compute_recommendations lower req))
      /\ (expected_secret = "" \/ header_secret = expected_secret)).
Proof.
  intros expected_secret header_secret.
  unfold analyze_media, check_secret, bool_of_str.
  fold expected_secret header_secret.
  destruct (String.eqb_spec expected_secret "") as [Hempty|Hset]; cbn [negb].
  - right. split; [reflexivity | left; exact Hempty].
  - destruct (String.eqb_spec header_secret expected_secret) as [Heq|Hne];
      cbn [negb].
    + right. split; [reflexivity | right; exact Heq].
    + left. split; [reflexivity | split; assumption].
Qed.

(** X14: when the environment secret is unset, empty or strips to the empty
    string, no header is looked at: every request is answered with the
    core's recommendations. *)
Theorem analyze_media_open_without_secret (environ : gmap string string)
    (req : AnalyzeRequest.t) (request : Request.t) :
  strip (dict_get environ "MCP_COLAB_API_SECRET" "") = "" ->
  analyze_media lower strip environ req request
  = inr (AnalyzeResponse.mk (_compute_recommendations lower req)).
Proof.
  intros Hempty. unfold analyze_media, check_secret. rewrite Hempty.
  reflexivity.
Qed.

(** X15: with a secret configured, a request without the X-MCP-Secret
    header is rejected with 401, whatever its body is. *)
Theorem analyze_media_rejects_missing_header (environ : gmap string string)
    (req : AnalyzeRequest.t) (request : Request.t) :
  strip "" = "" ->
  strip (dict_get environ "MCP_COLAB_API_SECRET" "") <> "" ->
  Request.headers request "X-MCP-Secret" = None ->
  analyze_media lower strip environ req request
  = inl (HTTPException.mk 401 "Invalid secret").
Proof.
  intros Hstrip Hset Hmissing.
  unfold analyze_media, check_secret, bool_of_str, headers_get.
  rewrite Hmissing, Hstrip.
  destruct (String.eqb_spec (strip (dict_get environ "MCP_COLAB_API_SECRET" "")) "")
    as [Hempty|_]; [contradiction|].
  destruct (String.eqb_spec "" (strip (dict_get environ "MCP_COLAB_API_SECRET" "")))
    as [Heq|_]; [symmetry in Heq; contradiction|].
  reflexivity.
Qed.

(** X16: the check compares stripped values: a header that differs from
    the configured secret only by surrounding whitespace is accepted. *)
Theorem analyze_media_accepts_up_to_whitespace (environ : gmap string string)
    (req : AnalyzeRequest.t) (request : Request.t) (secret value : string) :
  environ !! "MCP_COLAB_API_SECRET" = Some secret ->
  Request.headers request "X-MCP-Secret" = Some value ->
  strip value = strip secret ->
  analyze_media lower strip environ req request
  = inr (AnalyzeResponse.mk (_compute_recommendations lower req)).
Proof.
  intros Henv Hheader Heq.
  unfold analyze_media, check_secret, bool_of_str, headers_get, dict_get.
  rewrite Henv, Hheader, Heq, String.eqb_refl.
  destruct (negb (String.eqb (strip secret) "")); reflexivity.
Qed.

End HandlerProperties.

(** ** The further properties at concrete requests *)

Lemma service_type_monotone_witness :
  dict_get order
    (Recommendations.service_type
       (_compute_recommendations str_lower_ascii (example_images 3))) 0
  <= dict_get order
       (Recommendations.service_type
          (_compute_recommendations str_lower_ascii (example_images 12))) 0.
Proof.
  apply (service_type_monotone str_lower_ascii (example_images 3) (example_images 12));
    [reflexivity | intros H; exact H | intros H; exact H
    | vm_compute; discriminate | vm_compute; discriminate].
Defined.

Lemma estimated_minutes_monotone_witness :
  Recommendations.estimated_minutes
    (_compute_recommendations str_lower_ascii example_with_elevator) = Some 240
  /\ Recommendations.estimated_minutes
       (_compute_recommendations str_lower_ascii example_more_stairs) = Some 360
  /\ 240 <= 360.
Proof.
  split; [reflexivity | split; [reflexivity|]].
  apply (estimated_minutes_monotone str_lower_ascii
           example_with_elevator example_more_stairs 240 360);
    [reflexivity | intros H; discriminate H | vm_compute; discriminate
    | reflexivity | reflexivity].
Defined.

Lemma no_penalty_without_positive_floors_witness :
  floors_total_of example_basement <= 0
  /\ Recommendations.estimated_minutes
       (_compute_recommendations str_lower_ascii example_basement)
     = Some (snd (dict_get truck_map
                    (place_size_of str_lower_ascii example_basement)
                    ("small", 2, 120)))
  /\ ~ In "vision_multi_floor_no_elevator"
       (Recommendations.reasons
          (_compute_recommendations str_lower_ascii example_basement)).
Proof.
  assert (Hfloors : floors_total_of example_basement <= 0)
    by (vm_compute; discriminate).
  split; [exact Hfloors|].
  apply (no_penalty_without_positive_floors str_lower_ascii example_basement Hfloors).
Defined.

Lemma output_depends_only_on_normalised_signals_witness :
  example_raw_signals <> example_plain_signals
  /\ _compute_recommendations str_lower_ascii example_raw_signals
     = _compute_recommendations str_lower_ascii example_plain_signals.
Proof.
  split; [discriminate|].
  apply (output_depends_only_on_normalised_signals str_lower_ascii
           example_raw_signals example_plain_signals); reflexivity.
Defined.

Lemma heavy_prefix_with_default_logistics_witness :
  truck_map !! place_size_of str_lower_ascii example_decorated_villa = None
  /\ Recommendations.service_type
       (_compute_recommendations str_lower_ascii example_decorated_villa) = "heavy"
  /\ Recommendations.truck_size
       (_compute_recommendations str_lower_ascii example_decorated_villa)
     = Some "small"
  /\ Recommendations.workers
       (_compute_recommendations str_lower_ascii example_decorated_villa) = Some 2.
Proof.
  assert (Hkey : truck_map !! place_size_of str_lower_ascii example_decorated_villa
                 = None) by (vm_compute; reflexivity).
  destruct (heavy_prefix_with_default_logistics str_lower_ascii
              example_decorated_villa Hkey eq_refl) as (Hsvc & Htruck & Hworkers & _).
  repeat split; assumption.
Defined.

Lemma analyze_media_open_without_secret_witness :
  str_strip_ascii (dict_get (example_environ "   ") "MCP_COLAB_API_SECRET" "") = ""
  /\ analyze_media str_lower_ascii str_strip_ascii (example_environ "   ")
       example_villa example_no_header
     = inr (AnalyzeResponse.mk
              (_compute_recommendations str_lower_ascii example_villa))
  /\ analyze_media str_lower_ascii str_strip_ascii ∅
       example_villa example_no_header
     = inr (AnalyzeResponse.mk
              (_compute_recommendations str_lower_ascii example_villa)).
Proof.
  split; [vm_compute; reflexivity|].
  split; apply (analyze_media_open_without_secret str_lower_ascii str_strip_ascii);
    vm_compute; reflexivity.
Defined.

Lemma analyze_media_rejects_missing_header_witness :
  str_strip_ascii (dict_get (example_environ "s3cret") "MCP_COLAB_API_SECRET" "")
  = "s3cret"
  /\ analyze_media str_lower_ascii str_strip_ascii (example_environ "s3cret")
       example_villa example_no_header
     = inl (HTTPException.mk 401 "Invalid secret").
Proof.
  assert (Hsecret :
    str_strip_ascii (dict_get (example_environ "s3cret") "MCP_COLAB_API_SECRET" "")
    = "s3cret") by (vm_compute; reflexivity).
  split; [exact Hsecret|].
  apply (analyze_media_rejects_missing_header str_lower_ascii str_strip_ascii);
    [reflexivity | rewrite Hsecret; discriminate | reflexivity].
Defined.

Lemma analyze_media_accepts_up_to_whitespace_witness :
  analyze_media str_lower_ascii str_strip_ascii (example_environ " s3cret ")
    example_villa (example_header "s3cret  ")
  = inr (AnalyzeResponse.mk
           (_compute_recommendations str_lower_ascii example_villa)).
Proof.
  apply (analyze_media_accepts_up_to_whitespace str_lower_ascii str_strip_ascii
           (example_environ " s3cret ") example_villa (example_header "s3cret  ")
           " s3cret " "s3cret  ");
    vm_compute; reflexivity.
Defined.
